(** * Items service and LMS router aggregator

    A shallow embedding of the two programs of the repository:

    - [Basic/app.py]: three routes ([read_root], [read_item], [create_item])
      and the [Item] model;
    - [FastAPIProject/main.py]: an application object with metadata onto
      which three routers defined elsewhere are mounted.

    Both programs are route declarations handed to a web framework.  The
    part of the framework they rely on (request parameters declared by type
    annotations, model validation, route matching and dispatch) is embedded
    in [Module fastapi]; the programs themselves follow in [Module Basic]
    and [Module FastAPIProject], statement by statement.

    Text is held in [string] as its UTF-8 encoding; where the framework
    counts or classifies characters, the embedding decodes the bytes. *)

From Stdlib Require Import ZArith Ascii DecimalString DecimalZ DecimalPos.
From stdpp Require Import gmap strings list fin_maps.

Set Warnings "-register-all".

(** ** The framework *)

Module fastapi.

(** Python values as they occur in decoded JSON bodies and in the
    dictionaries that handlers return.  A float is kept as its lexeme: no
    handler of the programs computes with it. *)
Inductive value :=
  | VNone
  | VBool (b : bool)
  | VInt (n : Z)
  | VFloat (lexeme : string)
  | VStr (s : string)
  | VList (l : list value)
  | VDict (d : gmap string value).

(** A dictionary display [{k1: v1, ..., kn: vn}]: the items are inserted
    from left to right, a later key replacing an earlier equal one. *)
Definition dict (items : list (string * value)) : gmap string value :=
  foldl (fun d kv => <[kv.1 := kv.2]> d) ∅ items.

(** *** Requests and responses *)

Inductive Method := GET | POST | PUT | DELETE | PATCH | HEAD | OPTIONS.

#[global] Instance Method_eq_dec : EqDecision Method.
Proof. solve_decision. Defined.

(** A request after the server has decoded it: the query string is a list
    of key/value pairs in the order they were sent, the body is the decoded
    JSON payload when there is one. *)
Record Request := mkRequest {
  method : Method;
  path : string;
  query_params : list (string * string);
  headers : list (string * string);
  body : option value
}.

Inductive ErrorKind :=
  | missing
  | int_parsing
  | int_parsing_size
  | string_type
  | string_too_short (min_length : nat)
  | model_attributes_type.

(** Of each entry of a validation failure the embedding records where the
    error is and of what kind; the message and the echoed input that come
    with it are not recorded. *)
Record ValidationError := mkError {
  loc : list string;
  kind : ErrorKind
}.

(** What the client observes.  [OK] carries the value the handler returned;
    [RequestValidationError] is the framework's answer when the declared
    parameters cannot be built from the request, in which case the handler
    is not called. *)
Inductive Response :=
  | OK (content : value)
  | HTMLResponse (content : string)
  | RequestValidationError (errors : list ValidationError)
  | MethodNotAllowed
  | NotFound.

Definition is_validation_failure (r : Response) : bool :=
  match r with
  | RequestValidationError _ => true
  | _ => false
  end.

(** Lookup in a multi-dict (query string, path parameters): the last
    binding of a key wins. *)
Fixpoint multidict_get (key : string) (items : list (string * string))
  : option string :=
  match items with
  | [] => None
  | (k, v) :: rest =>
      match multidict_get key rest with
      | Some v' => Some v'
      | None => if decide (k = key) then Some v else None
      end
  end.

(** *** Validation results

    The framework validates every declared parameter and reports all the
    errors together, so the results combine as an applicative that
    accumulates errors rather than as a monad that stops at the first. *)

Inductive validated (A : Type) :=
  | Valid (a : A)
  | Invalid (errors : list ValidationError).
Arguments Valid {A} a.
Arguments Invalid {A} errors.

Definition vmap {A B} (f : A -> B) (x : validated A) : validated B :=
  match x with
  | Valid a => Valid (f a)
  | Invalid e => Invalid e
  end.

Definition vap {A B} (f : validated (A -> B)) (x : validated A)
  : validated B :=
  match f, x with
  | Valid g, Valid a => Valid (g a)
  | Valid _, Invalid e => Invalid e
  | Invalid e, Valid _ => Invalid e
  | Invalid e1, Invalid e2 => Invalid (e1 ++ e2)
  end.

Notation "f <$$> x" := (vmap f x) (at level 61, left associativity).
Notation "f <**> x" := (vap f x) (at level 61, left associativity).

(** *** Text and its characters *)

Definition byte (c : ascii) : N := N_of_ascii c.

Definition continuation (c : ascii) : bool :=
  ((128 <=? byte c) && (byte c <? 192))%N.

(** The code points a UTF-8 text encodes; [None] when the bytes are not
    well-formed UTF-8 (stray or missing continuation bytes, overlong
    forms, surrogates, values above U+10FFFF). *)
Fixpoint code_points (s : string) : option (list N) :=
  match s with
  | EmptyString => Some []
  | String b0 s1 =>
      let n0 := byte b0 in
      if (n0 <? 128)%N then cons n0 <$> code_points s1
      else if (n0 <? 194)%N then None
      else if (n0 <? 224)%N then
        match s1 with
        | String b1 s2 =>
            if continuation b1
            then cons ((n0 - 192) * 64 + (byte b1 - 128))%N
                   <$> code_points s2
            else None
        | _ => None
        end
      else if (n0 <? 240)%N then
        match s1 with
        | String b1 (String b2 s3) =>
            let cp := ((n0 - 224) * 4096 + (byte b1 - 128) * 64
                       + (byte b2 - 128))%N in
            if continuation b1 && continuation b2 && (2048 <=? cp)%N
               && negb ((55296 <=? cp)%N && (cp <=? 57343)%N)
            then cons cp <$> code_points s3
            else None
        | _ => None
        end
      else if (n0 <? 245)%N then
        match s1 with
        | String b1 (String b2 (String b3 s4)) =>
            let cp := ((n0 - 240) * 262144 + (byte b1 - 128) * 4096
                       + (byte b2 - 128) * 64 + (byte b3 - 128))%N in
            if continuation b1 && continuation b2 && continuation b3
               && (65536 <=? cp)%N && (cp <=? 1114111)%N
            then cons cp <$> code_points s4
            else None
        | _ => None
        end
      else None
  end.

(** Well-formed text. *)
Definition utf8 (s : string) : bool :=
  match code_points s with
  | Some _ => true
  | None => false
  end.

(** The length of a text as the framework counts it: in characters, not
    in bytes. *)
Definition characters (s : string) : nat :=
  match code_points s with
  | Some cps => length cps
  | None => 0
  end.

(** The characters with the Unicode property White_Space. *)
Definition is_whitespace (cp : N) : bool :=
  (((9 <=? cp) && (cp <=? 13)) || (cp =? 32) || (cp =? 133) || (cp =? 160)
   || (cp =? 5760) || ((8192 <=? cp) && (cp <=? 8202)) || (cp =? 8232)
   || (cp =? 8233) || (cp =? 8239) || (cp =? 8287) || (cp =? 12288))%N.

Fixpoint drop_whitespace (l : list N) : list N :=
  match l with
  | [] => []
  | cp :: l' => if is_whitespace cp then drop_whitespace l' else l
  end.

(** White space removed at both ends. *)
Definition trim (l : list N) : list N :=
  rev (drop_whitespace (rev (drop_whitespace l))).

(** *** Coercion of raw strings to the annotation [int]

    The text is trimmed and read as a plain integer numeral; when that
    fails it is cleaned (a leading plus sign, leading zeros, a fraction of
    zeros and single underscores between digits are removed) and read
    again.  A numeral of more than 4300 digits is refused for its size. *)

Definition is_digit (cp : N) : bool := ((48 <=? cp) && (cp <=? 57))%N.

Fixpoint span_digits (l : list N) : list N * list N :=
  match l with
  | [] => ([], [])
  | cp :: l' =>
      if is_digit cp
      then let '(ds, rest) := span_digits l' in (cp :: ds, rest)
      else ([], l)
  end.

(** The digits, most significant first, as a decimal number. *)
Fixpoint uint_of_digits (ds : list N) : Decimal.uint :=
  match ds with
  | [] => Decimal.Nil
  | cp :: ds' =>
      let d := uint_of_digits ds' in
      match (cp - 48)%N with
      | 0%N => Decimal.D0 d
      | 1%N => Decimal.D1 d
      | 2%N => Decimal.D2 d
      | 3%N => Decimal.D3 d
      | 4%N => Decimal.D4 d
      | 5%N => Decimal.D5 d
      | 6%N => Decimal.D6 d
      | 7%N => Decimal.D7 d
      | 8%N => Decimal.D8 d
      | _ => Decimal.D9 d
      end
  end.

Inductive NumberError := InvalidNumber | NumberOutOfRange.

Definition max_digits : nat := 4300.

(** A plain integer numeral: an optional minus sign, then either the
    single digit [0] or digits that do not start with [0]; nothing may
    follow. *)
Definition number_int (l : list N) : Z + NumberError :=
  let '(negative, body) :=
    match l with
    | cp :: r => if (cp =? 45)%N then (true, r) else (false, l)
    | [] => (false, l)
    end in
  match body with
  | [] => inr InvalidNumber
  | d :: r =>
      if (d =? 48)%N then
        match r with
        | [] => inl 0%Z
        | _ => inr InvalidNumber
        end
      else if is_digit d then
        let '(ds, rest) := span_digits body in
        if (max_digits <? length ds)%nat then inr NumberOutOfRange
        else
          match rest with
          | [] =>
              let n := Z.of_uint (uint_of_digits ds) in
              inl (if negative then (- n)%Z else n)
          | _ => inr InvalidNumber
          end
      else inr InvalidNumber
  end.

(** After a first [0]: further zeros and underscores are skipped up to the
    first other digit; before a dot the preceding character is kept; when
    nothing else follows the last character is kept. *)
Fixpoint skip_zeros (prev : N) (l : list N) : option (list N) :=
  match l with
  | [] => Some [prev]
  | cp :: l' =>
      if ((cp =? 48) || (cp =? 95))%N then skip_zeros cp l'
      else if is_digit cp then Some l
      else if (cp =? 46)%N then Some (prev :: l)
      else None
  end.

Definition strip_leading_zeros (l : list N) : option (list N) :=
  match l with
  | [] => None
  | cp :: l' =>
      if (cp =? 48)%N then skip_zeros cp l'
      else if (is_digit cp || (cp =? 45))%N then Some l
      else None
  end.

(** What precedes the first dot, and what follows it. *)
Fixpoint split_at_dot (l : list N) : option (list N * list N) :=
  match l with
  | [] => None
  | cp :: l' =>
      if (cp =? 46)%N then Some ([], l')
      else
        match split_at_dot l' with
        | Some (before, after) => Some (cp :: before, after)
        | None => None
        end
  end.

Definition strip_decimal_zeros (l : list N) : list N :=
  match split_at_dot l with
  | Some (before, after) =>
      if forallb (fun cp => (cp =? 48)%N) after then before else l
  | None => l
  end.

Fixpoint double_underscore (l : list N) : bool :=
  match l with
  | cp :: (cp' :: _) as l' =>
      ((cp =? 95) && (cp' =? 95))%N || double_underscore l'
  | _ => false
  end.

(** Underscores are removed when there is one and none of them stands
    first, last or next to another. *)
Definition strip_underscores (l : list N) : option (list N) :=
  if (match l with cp :: _ => (cp =? 95)%N | [] => false end)
     || (match rev l with cp :: _ => (cp =? 95)%N | [] => false end)
     || negb (existsb (fun cp => (cp =? 95)%N) l)
     || double_underscore l
  then None
  else Some (filter (fun cp => negb (cp =? 95)%N) l).

Definition clean_int_str (l : list N) : option (list N) :=
  let l1 :=
    match l with
    | cp :: r => if (cp =? 43)%N then r else l
    | [] => l
    end in
  match strip_leading_zeros l1 with
  | None => None
  | Some l2 =>
      let l3 := strip_decimal_zeros l2 in
      match strip_underscores l3 with
      | Some l4 => Some l4
      | None => if (length l =? length l3)%nat then None else Some l3
      end
  end.

Definition str_as_int (cps : list N) : Z + ErrorKind :=
  let l := trim cps in
  match number_int l with
  | inl n => inl n
  | inr NumberOutOfRange => inr int_parsing_size
  | inr InvalidNumber =>
      match clean_int_str l with
      | Some l' =>
          match number_int l' with
          | inl n => inl n
          | inr _ => inr int_parsing
          end
      | None => inr int_parsing
      end
  end.


Definition int_of_str (s : string) : Z + ErrorKind :=
  match code_points s with
  | Some cps => str_as_int cps
  | None => inr int_parsing
  end.

(** The decimal numeral of an integer, as it appears in a URL. *)
Definition str_of_int (n : Z) : string :=
  NilZero.string_of_int (Z.to_int n).

(** *** Declared parameters *)

(** [Query(default, min_length=...)] on a parameter annotated [str]. *)
Record QueryInfo := Query {
  default : option string;
  min_length : option nat
}.

(** A path parameter annotated [int]. *)
Definition path_int (name : string) (path_params : list (string * string))
  : validated Z :=
  match multidict_get name path_params with
  | None => Invalid [mkError ["path"; name] missing]
  | Some raw =>
      match int_of_str raw with
      | inl n => Valid n
      | inr k => Invalid [mkError ["path"; name] k]
      end
  end.

(** A query parameter annotated [str] with a [Query] declaration.  When the
    key is absent the default is passed on as it is; a supplied value,
    the empty string included, is checked against [min_length], which
    counts the characters of the text. *)
Definition query_str (name : string) (info : QueryInfo) (req : Request)
  : validated (option string) :=
  match multidict_get name (query_params req) with
  | None => Valid (default info)
  | Some raw =>
      match min_length info with
      | Some m =>
          if (m <=? characters raw)%nat then Valid (Some raw)
          else Invalid [mkError ["query"; name] (string_too_short m)]
      | None => Valid (Some raw)
      end
  end.

(** A model field annotated [str]: present and a string. *)
Definition str_field (name : string) (d : gmap string value)
  : validated string :=
  match d !! name with
  | None => Invalid [mkError ["body"; name] missing]
  | Some (VStr s) => Valid s
  | Some _ => Invalid [mkError ["body"; name] string_type]
  end.

(** A model class: how an instance is built from a dictionary.  Keys that
    are not fields of the model are not looked at. *)
Class BaseModel (A : Type) := model_validate : gmap string value -> validated A.

(** A required body parameter, [Body(...)], annotated with a model.  It is
    the only body parameter of its endpoint, so the model is read from the
    body itself and not from a key called [name]. *)
Definition body_model {A} `{BaseModel A} (name : string) (req : Request)
  : validated A :=
  match body req with
  | None => Invalid [mkError ["body"] missing]
  | Some (VDict d) => model_validate d
  | Some _ => Invalid [mkError ["body"] model_attributes_type]
  end.

(** *** Path patterns *)

Inductive piece :=
  | Lit (s : string)
  | Param (name : string).

Definition lit (acc : string) : list piece :=
  match acc with
  | EmptyString => []
  | _ => [Lit acc]
  end.

(** Splits a route path such as ["/items/{item_id}"] into literal text and
    parameters in braces. *)
Fixpoint compile_from (s : string) (in_braces : bool) (acc : string)
  : list piece :=
  match s with
  | EmptyString => lit acc
  | String c s' =>
      if in_braces then
        if Ascii.eqb c "}" then Param acc :: compile_from s' false ""
        else compile_from s' true (acc +:+ String c "")
      else
        if Ascii.eqb c "{" then lit acc ++ compile_from s' true ""
        else compile_from s' false (acc +:+ String c "")
  end.

Definition compile_path (p : string) : list piece := compile_from p false "".

Fixpoint strip_prefix (p s : string) : option string :=
  match p with
  | EmptyString => Some s
  | String a p' =>
      match s with
      | String b s' => if Ascii.eqb a b then strip_prefix p' s' else None
      | EmptyString => None
      end
  end.

(** The longest prefix without a slash, and what follows it. *)
Fixpoint span_segment (s : string) : string * string :=
  match s with
  | EmptyString => (EmptyString, EmptyString)
  | String c s' =>
      if Ascii.eqb c "/" then (EmptyString, s)
      else let '(seg, rest) := span_segment s' in (String c seg, rest)
  end.

Definition newline : ascii := "010"%char.

(** The end of a pattern fits the end of the path, and also stands before
    one last newline. *)
Definition at_end (p : string) : bool :=
  match p with
  | EmptyString => true
  | String c EmptyString => Ascii.eqb c newline
  | _ => false
  end.

(** A parameter matches one or more characters other than a slash. *)
Fixpoint match_path (pat : list piece) (p : string)
  : option (list (string * string)) :=
  match pat with
  | [] => if at_end p then Some [] else None
  | Lit l :: pat' =>
      match strip_prefix l p with
      | Some rest => match_path pat' rest
      | None => None
      end
  | Param x :: pat' =>
      let '(seg, rest) := span_segment p in
      match seg with
      | EmptyString => None
      | _ => cons (x, seg) <$> match_path pat' rest
      end
  end.

(** A string that can stand for a path parameter. *)
Fixpoint no_slash (s : string) : bool :=
  match s with
  | EmptyString => true
  | String c s' => negb (Ascii.eqb c "/") && no_slash s'
  end.

Definition segment (s : string) : bool :=
  match s with
  | EmptyString => false
  | _ => no_slash s
  end.

(** *** State

    Python code runs against mutable state.  [State S A] is a computation
    that may read and write a state of type [S] and returns an [A]. *)

Definition State (S A : Type) : Type := S -> A * S.

Definition ret {S A} (a : A) : State S A := fun s => (a, s).

Definition bind {S A B} (m : State S A) (k : A -> State S B) : State S B :=
  fun s => let '(a, s') := m s in k a s'.

Notation "x <- m ;; k" := (bind m (fun x => k))
  (at level 100, m at next level, right associativity).
Notation "m ;; k" := (bind m (fun _ => k))
  (at level 100, right associativity).

Section application.

(** Whatever state of the process a handler could read or write while it
    serves a request. *)
Context {World : Type}.

Definition Handler (A : Type) : Type := State World A.

(** An endpoint is a handler together with the parameters its signature
    declares: it receives the request and the parameters matched in the
    path. *)
Definition Endpoint : Type :=
  Request -> list (string * string) -> Handler Response.

(** The handler runs only when all its arguments were validated. *)
Definition respond (call : validated (Handler value)) : Handler Response :=
  match call with
  | Valid h => v <- h ;; ret (OK v)
  | Invalid errs => ret (RequestValidationError errs)
  end.

Record APIRoute := mkRoute {
  route_path : string;
  methods : list Method;
  endpoint : Endpoint
}.

Record APIRouter := mkRouter {
  router_routes : list APIRoute
}.

Record FastAPI := mkApp {
  title : string;
  description : string;
  version : string;
  routes : list APIRoute
}.

#[global] Instance FastAPI_inhabited : Inhabited FastAPI :=
  populate (mkApp "" "" "" []).

(** The endpoints the framework itself serves on every application: the
    generated schema and the documentation pages.  What they answer, and
    what they keep in the state, is the framework's business. *)
Class Builtins := mkBuiltins {
  openapi : Endpoint;
  swagger_ui_html : Endpoint;
  swagger_ui_redirect : Endpoint;
  redoc_html : Endpoint
}.

Context {builtins : Builtins}.

(** The routes the constructor registers before any other. *)
Definition setup : list APIRoute :=
  [mkRoute "/openapi.json" [GET; HEAD] openapi;
   mkRoute "/docs" [GET; HEAD] swagger_ui_html;
   mkRoute "/docs/oauth2-redirect" [GET; HEAD] swagger_ui_redirect;
   mkRoute "/redoc" [GET; HEAD] redoc_html].

(** **** Executing a module

    The statements of a module run once, at import, against the objects
    allocated so far; an application object is referred to by its address
    and is changed in place by the registration methods. *)

Definition Heap : Type := list FastAPI.
Definition Exec (A : Type) : Type := State Heap A.
Definition ref : Type := nat.

(** [FastAPI(title=..., description=..., version=...)] *)
Definition FastAPI_ (title description version : string) : Exec ref :=
  fun h => (length h, h ++ [mkApp title description version setup]).

(** [FastAPI()], with the constructor's default metadata. *)
Definition FastAPI_default : Exec ref := FastAPI_ "FastAPI" "" "0.1.0".

Definition add_api_route (app : ref) (r : APIRoute) : Exec unit :=
  fun h =>
    (tt, alter (fun a => mkApp (title a) (description a) (version a)
                               (routes a ++ [r])) app h).

(** [@app.get(path)] applied to an endpoint. *)
Definition get (app : ref) (p : string) (e : Endpoint) : Exec unit :=
  add_api_route app (mkRoute p [GET] e).

(** [@app.post(path)] applied to an endpoint. *)
Definition post (app : ref) (p : string) (e : Endpoint) : Exec unit :=
  add_api_route app (mkRoute p [POST] e).

(** [app.include_router(router)]: the routes of the router are added to the
    application one after the other. *)
Fixpoint add_routes (app : ref) (rs : list APIRoute) : Exec unit :=
  match rs with
  | [] => ret tt
  | r :: rs' => add_api_route app r ;; add_routes app rs'
  end.

Definition include_router (app : ref) (router : APIRouter) : Exec unit :=
  add_routes app (router_routes router).

(** **** Dispatch *)

Inductive Match := NONE | PARTIAL | FULL.

(** A route matches fully when path and method match, partially when only
    the path does. *)
Definition matches (r : APIRoute) (req : Request)
  : Match * list (string * string) :=
  match match_path (compile_path (route_path r)) (path req) with
  | None => (NONE, [])
  | Some path_params =>
      if bool_decide (method req ∈ methods r) then (FULL, path_params)
      else (PARTIAL, path_params)
  end.

(** The first route that matches fully answers the request; without one, a
    partial match means the method is not allowed on that path. *)
Fixpoint dispatch (rs : list APIRoute) (partial : bool) (req : Request)
  : Handler Response :=
  match rs with
  | [] => ret (if partial then MethodNotAllowed else NotFound)
  | r :: rs' =>
      match matches r req with
      | (FULL, path_params) => endpoint r req path_params
      | (PARTIAL, _) => dispatch rs' true req
      | (NONE, _) => dispatch rs' partial req
      end
  end.

Definition handle (app : FastAPI) (req : Request) : Handler Response :=
  dispatch (routes app) false req.

(** Requests served one after the other by the same process. *)
Fixpoint serve (app : FastAPI) (reqs : list Request)
  : Handler (list Response) :=
  match reqs with
  | [] => ret []
  | req :: reqs' =>
      resp <- handle app req ;;
      resps <- serve app reqs' ;;
      ret (resp :: resps)
  end.

End application.

Arguments APIRoute : clear implicits.
Arguments APIRouter : clear implicits.
Arguments FastAPI : clear implicits.
Arguments Builtins : clear implicits.
Arguments Endpoint : clear implicits.
Arguments Handler : clear implicits.
Arguments Exec : clear implicits.
Arguments Heap : clear implicits.

End fastapi.

(** ** [Basic/app.py] *)

Module Basic.
Import fastapi.

Section app.
Context {World : Type} {builtins : Builtins World}.

(** [q] as the handler receives it: a string, or [None]. *)
Definition optional_str (q : option string) : value :=
  match q with
  | Some s => VStr s
  | None => VNone
  end.

Definition read_root : Handler World value :=
  ret (VDict (dict [("Hello", VStr "World")])).

Definition read_item (item_id : Z) (q : option string) : Handler World value :=
  ret (VDict (dict [("item_id", VInt item_id); ("q", optional_str q)])).

Record Item := mkItem {
  name : string;
  description : string
}.

#[global] Instance Item_model : BaseModel Item :=
  fun d => mkItem <$$> str_field "name" d <**> str_field "description" d.

Definition create_item (item : Item) : Handler World value :=
  ret (VDict (dict [("name", VStr (name item));
                    ("description", VStr (description item))])).

(** The bodies the model accepts: a dictionary in which both fields are
    present and hold strings. *)
Definition is_str (v : option value) : bool :=
  match v with
  | Some (VStr _) => true
  | _ => false
  end.

Definition Item_shape (b : option value) : bool :=
  match b with
  | Some (VDict d) => is_str (d !! "name") && is_str (d !! "description")
  | _ => false
  end.

(** The signatures: [read_root()],
    [read_item(item_id: int, q: str = Query(None, min_length=3))] and
    [create_item(item: Item = Body(...))]. *)

Definition read_root_endpoint : Endpoint World :=
  fun req path_params => respond (Valid read_root).

Definition read_item_endpoint : Endpoint World :=
  fun req path_params =>
    respond (read_item <$$> path_int "item_id" path_params
                       <**> query_str "q" (Query None (Some 3)) req).

Definition create_item_endpoint : Endpoint World :=
  fun req path_params =>
    respond (create_item <$$> body_model "item" req).

(** The module, statement by statement. *)
Definition module : Exec World ref :=
  app <- FastAPI_default ;;
  get app "/" read_root_endpoint ;;
  get app "/items/{item_id}" read_item_endpoint ;;
  post app "/items/" create_item_endpoint ;;
  ret app.

(** The application object once the module is imported. *)
Definition app : FastAPI World :=
  let '(r, h) := module [] in h !!! r.

End app.

End Basic.

(** ** [FastAPIProject/main.py] *)

Module FastAPIProject.
Import fastapi.

(** What [from api import users, courses, sections] brings in: modules
    with a [router] attribute.  Their source is not part of the program. *)
Record api_module {World : Type} := mkApiModule {
  router : APIRouter World
}.
Arguments api_module : clear implicits.

Section main.
Context {World : Type} {builtins : Builtins World}.
Variable users : api_module World.
Variable courses : api_module World.
Variable sections : api_module World.

Definition module : Exec World ref :=
  app <- FastAPI_ "Fast API LMS" "LMS for managing students and courses."
                  "0.0.1" ;;
  include_router app (router users) ;;
  include_router app (router courses) ;;
  include_router app (router sections) ;;
  ret app.

(** The application object once the module is imported. *)
Definition app : FastAPI World :=
  let '(r, h) := module [] in h !!! r.

End main.

End FastAPIProject.

(** ** Vocabulary for statements about routing *)

Module routing.
Import fastapi.

Section routing.
Context {World : Type}.





(** Stand-ins for the framework's own endpoints, for the same purpose. *)
Definition sample_builtins : Builtins World :=
  mkBuiltins (fun _ _ => ret (OK (VDict ∅)))
             (fun _ _ => ret (HTMLResponse "docs"))
             (fun _ _ => ret (HTMLResponse "redirect"))
             (fun _ _ => ret (HTMLResponse "redoc")).

End routing.

End routing.

(** ** Facts about the framework *)

Module fastapi_facts.
Import fastapi.

(** *** Paths *)

Lemma strip_prefix_app (p s : string) : strip_prefix p (p +:+ s) = Some s.
Proof.
  induction p as [|a p IH]; simpl; [reflexivity|].
  rewrite Ascii.eqb_refl. exact IH.
Qed.

Lemma span_segment_no_slash (s : string) :
  no_slash s = true -> span_segment s = (s, EmptyString).
Proof.
  induction s as [|c s IH]; simpl; [reflexivity|].
  intros [Hc Hs]%andb_prop.
  destruct (Ascii.eqb c "/"); [discriminate|].
  rewrite (IH Hs). reflexivity.
Qed.

Lemma match_literal_then_param (l x seg : string) :
  segment seg = true ->
  match_path [Lit l; Param x] (l +:+ seg) = Some [(x, seg)].
Proof.
  intros Hseg. simpl. rewrite strip_prefix_app.
  destruct seg as [|c seg]; [discriminate|].
  change (no_slash (String c seg) = true) in Hseg.
  rewrite (span_segment_no_slash _ Hseg). reflexivity.
Qed.

(** *** Decimal numerals *)

Lemma no_slash_uint (d : Decimal.uint) :
  no_slash (NilEmpty.string_of_uint d) = true.
Proof. induction d; simpl; auto. Qed.

Lemma no_slash_nilzero_uint (d : Decimal.uint) :
  no_slash (NilZero.string_of_uint d) = true.
Proof. destruct d; try reflexivity; apply (no_slash_uint (_ d)). Qed.

Lemma segment_str_of_int (n : Z) : segment (str_of_int n) = true.
Proof.
  unfold str_of_int.
  destruct n as [|p|p]; simpl; [reflexivity| |].
  - pose proof (DecimalPos.Unsigned.to_uint_nonnil p) as Hnil.
    destruct (Pos.to_uint p) eqn:E; try congruence;
      simpl; apply no_slash_uint.
  - apply no_slash_nilzero_uint.
Qed.

(** The characters of a numeral. *)
Lemma uint_code_points (d : Decimal.uint) :
  exists ds,
    code_points (NilEmpty.string_of_uint d) = Some ds
    /\ forallb is_digit ds = true
    /\ uint_of_digits ds = d
    /\ length ds = String.length (NilEmpty.string_of_uint d)
    /\ ((forall d', d <> Decimal.D0 d') ->
        match ds with cp :: _ => (cp =? 48)%N = false | [] => True end).
Proof.
  induction d as [|d (ds & E & Hd & Hu & Hl & _)|d (ds & E & Hd & Hu & Hl & _)
                  |d (ds & E & Hd & Hu & Hl & _)|d (ds & E & Hd & Hu & Hl & _)
                  |d (ds & E & Hd & Hu & Hl & _)|d (ds & E & Hd & Hu & Hl & _)
                  |d (ds & E & Hd & Hu & Hl & _)|d (ds & E & Hd & Hu & Hl & _)
                  |d (ds & E & Hd & Hu & Hl & _)|d (ds & E & Hd & Hu & Hl & _)].
  - exists []. repeat split.
  - exists (48%N :: ds). simpl. rewrite E, Hd, Hu, Hl.
    repeat split. intros H. exfalso. apply (H d). reflexivity.
  - exists (49%N :: ds). simpl. rewrite E, Hd, Hu, Hl. repeat split.
  - exists (50%N :: ds). simpl. rewrite E, Hd, Hu, Hl. repeat split.
  - exists (51%N :: ds). simpl. rewrite E, Hd, Hu, Hl. repeat split.
  - exists (52%N :: ds). simpl. rewrite E, Hd, Hu, Hl. repeat split.
  - exists (53%N :: ds). simpl. rewrite E, Hd, Hu, Hl. repeat split.
  - exists (54%N :: ds). simpl. rewrite E, Hd, Hu, Hl. repeat split.
  - exists (55%N :: ds). simpl. rewrite E, Hd, Hu, Hl. repeat split.
  - exists (56%N :: ds). simpl. rewrite E, Hd, Hu, Hl. repeat split.
  - exists (57%N :: ds). simpl. rewrite E, Hd, Hu, Hl. repeat split.
Qed.

Lemma digit_range (cp : N) :
  is_digit cp = true <-> (48 <= cp <= 57)%N.
Proof.
  unfold is_digit. rewrite andb_true_iff, !N.leb_le. reflexivity.
Qed.

Lemma digit_not_whitespace (cp : N) :
  is_digit cp = true -> is_whitespace cp = false.
Proof.
  intros H%digit_range. unfold is_whitespace.
  rewrite (proj2 (N.leb_gt cp 13)) by lia.
  rewrite (proj2 (N.leb_gt 8192 cp)) by lia.
  rewrite !(proj2 (N.eqb_neq cp _)) by lia.
  rewrite andb_false_r. reflexivity.
Qed.

Lemma span_digits_all (ds : list N) :
  forallb is_digit ds = true -> span_digits ds = (ds, []).
Proof.
  induction ds as [|cp ds IH]; simpl; [reflexivity|].
  intros [Hc Hd]%andb_prop. rewrite Hc, (IH Hd). reflexivity.
Qed.

Lemma drop_whitespace_head (cp : N) (l : list N) :
  is_whitespace cp = false -> drop_whitespace (cp :: l) = cp :: l.
Proof. intros H. simpl. rewrite H. reflexivity. Qed.

(** Trimming leaves alone a text that neither starts nor ends with white
    space. *)
Lemma trim_ends (l : list N) :
  match l with cp :: _ => is_whitespace cp = false | [] => True end ->
  match rev l with cp :: _ => is_whitespace cp = false | [] => True end ->
  trim l = l.
Proof.
  intros Hfirst Hlast. unfold trim.
  destruct l as [|cp l]; [reflexivity|].
  rewrite (drop_whitespace_head _ _ Hfirst).
  destruct (rev (cp :: l)) as [|cp' l'] eqn:E.
  - apply (f_equal (@length N)) in E. rewrite length_rev in E. discriminate.
  - rewrite (drop_whitespace_head _ _ Hlast), <- E. apply rev_involutive.
Qed.

Lemma forallb_rev_head (f : N -> bool) (l : list N) :
  forallb f l = true ->
  match rev l with cp :: _ => f cp = true | [] => True end.
Proof.
  intros H. destruct (rev l) as [|cp l'] eqn:E; [exact I|].
  rewrite forallb_forall in H. apply H, in_rev. rewrite E. left. reflexivity.
Qed.

(** A run of digits that does not start with [0] reads as the number it
    writes, with or without a minus sign, up to the size limit. *)
Lemma number_int_digits (cp : N) (ds : list N) (negative : bool) :
  forallb is_digit (cp :: ds) = true ->
  (cp =? 48)%N = false ->
  length (cp :: ds) <= max_digits ->
  number_int (if negative then 45%N :: cp :: ds else cp :: ds) =
    inl (if negative
         then (- Z.of_uint (uint_of_digits (cp :: ds)))%Z
         else Z.of_uint (uint_of_digits (cp :: ds))).
Proof.
  intros Hd Hz Hlen.
  assert (Hcp : is_digit cp = true) by (simpl in Hd; apply andb_prop in Hd; tauto).
  assert (H45 : (cp =? 45)%N = false).
  { apply digit_range in Hcp. apply N.eqb_neq. lia. }
  unfold number_int.
  destruct negative; cbn [N.eqb Pos.eqb]; rewrite ?H45;
    rewrite Hz, Hcp, (span_digits_all _ Hd);
    destruct (Nat.ltb_spec max_digits (length (cp :: ds))); try lia;
    reflexivity.
Qed.

Lemma nzhead_not_D0 (d d' : Decimal.uint) : Decimal.nzhead d <> Decimal.D0 d'.
Proof. induction d; simpl; try discriminate; assumption. Qed.

Lemma to_uint_not_D0 (p : positive) (d' : Decimal.uint) :
  Pos.to_uint p <> Decimal.D0 d'.
Proof.
  pose proof (DecimalPos.Unsigned.to_of (Pos.to_uint p)) as Hnorm.
  rewrite DecimalPos.Unsigned.of_to in Hnorm.
  change (N.to_uint (N.pos p)) with (Pos.to_uint p) in Hnorm.
  pose proof (DecimalPos.Unsigned.to_uint_nonzero p) as Hnz.
  rewrite Hnorm in Hnz |- *. unfold Decimal.unorm in *.
  destruct (Decimal.nzhead (Pos.to_uint p)) eqn:E; try discriminate.
  - intros [= <-]. apply Hnz. reflexivity.
  - exfalso. exact (nzhead_not_D0 _ _ E).
Qed.

(** The coercion reads back the numeral of every integer that stays
    within the size limit. *)
Lemma int_of_str_of_int (n : Z) :
  String.length (str_of_int n) <= max_digits ->
  int_of_str (str_of_int n) = inl n.
Proof.
  unfold str_of_int. destruct n as [|p|p]; [reflexivity| |].
  - cbn [Z.to_int NilZero.string_of_int]. unfold NilZero.string_of_uint.
    pose proof (to_uint_not_D0 p) as Hnz.
    pose proof (DecimalPos.Unsigned.to_uint_nonnil p) as Hnil.
    pose proof (DecimalPos.Unsigned.of_to p) as Hval.
    destruct (uint_code_points (Pos.to_uint p))
      as (ds & E & Hd & Hu & Hl & Hhead).
    specialize (Hhead Hnz).
    replace (match Pos.to_uint p with
             | Decimal.Nil => "0"
             | _ => NilEmpty.string_of_uint (Pos.to_uint p)
             end) with (NilEmpty.string_of_uint (Pos.to_uint p))
      by (destruct (Pos.to_uint p); try reflexivity; congruence).
    intros Hlen. unfold int_of_str. rewrite E. unfold str_as_int.
    destruct ds as [|cp ds]; [simpl in Hu; congruence|].
    rewrite trim_ends.
    + rewrite (number_int_digits cp ds false Hd Hhead) by (rewrite Hl; exact Hlen).
      rewrite Hu. unfold Z.of_uint. rewrite Hval. reflexivity.
    + apply digit_not_whitespace. simpl in Hd. apply andb_prop in Hd. tauto.
    + pose proof (forallb_rev_head _ _ Hd) as Hr.
      destruct (rev (cp :: ds)); [exact I|]. apply digit_not_whitespace, Hr.
  - cbn [Z.to_int NilZero.string_of_int]. unfold NilZero.string_of_uint.
    pose proof (to_uint_not_D0 p) as Hnz.
    pose proof (DecimalPos.Unsigned.to_uint_nonnil p) as Hnil.
    pose proof (DecimalPos.Unsigned.of_to p) as Hval.
    destruct (uint_code_points (Pos.to_uint p))
      as (ds & E & Hd & Hu & Hl & Hhead).
    specialize (Hhead Hnz).
    replace (match Pos.to_uint p with
             | Decimal.Nil => "0"
             | _ => NilEmpty.string_of_uint (Pos.to_uint p)
             end) with (NilEmpty.string_of_uint (Pos.to_uint p))
      by (destruct (Pos.to_uint p); try reflexivity; congruence).
    intros Hlen. unfold int_of_str.
    change (code_points (String "-" (NilEmpty.string_of_uint (Pos.to_uint p))))
      with (cons 45%N <$> code_points (NilEmpty.string_of_uint (Pos.to_uint p))).
    rewrite E. cbn [fmap option_fmap option_map]. unfold str_as_int.
    destruct ds as [|cp ds]; [simpl in Hu; congruence|].
    rewrite trim_ends.
    + rewrite (number_int_digits cp ds true Hd Hhead)
        by (rewrite Hl; simpl in Hlen; lia).
      rewrite Hu. unfold Z.of_uint. rewrite Hval. reflexivity.
    + reflexivity.
    + pose proof (forallb_rev_head _ _ Hd) as Hr.
      change (rev (45%N :: cp :: ds)) with (rev (cp :: ds) ++ [45%N]).
      destruct (rev (cp :: ds)); [reflexivity|].
      apply digit_not_whitespace, Hr.
Qed.

(** *** Texts the coercion refuses *)












End fastapi_facts.

(** ** Facts about [Basic/app.py] *)

Module Basic_facts.
Import fastapi fastapi_facts Basic.

Section app.
Context {World : Type} {builtins : Builtins World}.

(** The route table the module leaves in the application object: the
    routes of the constructor, then the three of the module. *)
Lemma app_routes :
  routes (@app World builtins) =
    [mkRoute "/openapi.json" [GET; HEAD] openapi;
     mkRoute "/docs" [GET; HEAD] swagger_ui_html;
     mkRoute "/docs/oauth2-redirect" [GET; HEAD] swagger_ui_redirect;
     mkRoute "/redoc" [GET; HEAD] redoc_html;
     mkRoute "/" [GET] read_root_endpoint;
     mkRoute "/items/{item_id}" [GET] read_item_endpoint;
     mkRoute "/items/" [POST] create_item_endpoint].
Proof. reflexivity. Qed.

Lemma app_metadata :
  title (@app World builtins) = "FastAPI"
  /\ fastapi.description (@app World builtins) = ""
  /\ version (@app World builtins) = "0.1.0".
Proof. repeat split. Qed.

(** *** Which route answers *)

Lemma handle_root (req : Request) :
  method req = GET -> path req = "/" ->
  handle (@app World builtins) req = read_root_endpoint req [].
Proof.
  intros Hm Hp. unfold handle. rewrite app_routes.
  unfold dispatch, matches. cbn [route_path methods endpoint].
  rewrite Hm, Hp. reflexivity.
Qed.

Lemma handle_items_get (req : Request) (seg : string) :
  method req = GET -> path req = "/items/" +:+ seg -> segment seg = true ->
  handle (@app World builtins) req = read_item_endpoint req [("item_id", seg)].
Proof.
  intros Hm Hp Hseg. unfold handle. rewrite app_routes.
  unfold dispatch, matches. cbn [route_path methods endpoint].
  rewrite Hm, Hp.
  change (compile_path "/items/{item_id}") with [Lit "/items/"; Param "item_id"].
  rewrite (match_literal_then_param _ _ _ Hseg).
  reflexivity.
Qed.

Lemma handle_items_post (req : Request) :
  method req = POST -> path req = "/items/" ->
  handle (@app World builtins) req = create_item_endpoint req [].
Proof.
  intros Hm Hp. unfold handle. rewrite app_routes.
  unfold dispatch, matches. cbn [route_path methods endpoint].
  rewrite Hm, Hp. reflexivity.
Qed.

(** *** Declared parameters *)

Lemma path_int_bound (x raw : string) :
  path_int x [(x, raw)] =
    match int_of_str raw with
    | inl n => Valid n
    | inr k => Invalid [mkError ["path"; x] k]
    end.
Proof. unfold path_int. simpl. rewrite decide_True by reflexivity. reflexivity. Qed.

Lemma query_q_absent (req : Request) :
  multidict_get "q" (query_params req) = None ->
  query_str "q" (Query None (Some 3)) req = Valid None.
Proof. intros H. unfold query_str. rewrite H. reflexivity. Qed.

Lemma query_q_long (req : Request) (s : string) :
  multidict_get "q" (query_params req) = Some s ->
  3 <= characters s ->
  query_str "q" (Query None (Some 3)) req = Valid (Some s).
Proof.
  intros H Hlen. unfold query_str. rewrite H. simpl min_length. cbv iota beta.
  destruct (Nat.leb_spec 3 (characters s)) as [_|Hlt]; [reflexivity|lia].
Qed.

Lemma query_q_short (req : Request) (s : string) :
  multidict_get "q" (query_params req) = Some s ->
  characters s < 3 ->
  query_str "q" (Query None (Some 3)) req =
    Invalid [mkError ["query"; "q"] (string_too_short 3)].
Proof.
  intros H Hlen. unfold query_str. rewrite H. simpl min_length. cbv iota beta.
  destruct (Nat.leb_spec 3 (characters s)) as [Hge|_]; [lia|reflexivity].
Qed.


(** *** Dictionary displays *)

Lemma dict_two (k1 k2 : string) (v1 v2 : value) :
  k1 <> k2 -> dict [(k1, v1); (k2, v2)] = {[k1 := v1; k2 := v2]}.
Proof.
  intros Hne. unfold dict. simpl.
  rewrite insert_insert_ne by congruence. rewrite insert_empty. reflexivity.
Qed.

Lemma dict_one (k : string) (v : value) : dict [(k, v)] = {[k := v]}.
Proof. unfold dict. simpl. apply insert_empty. Qed.

(** *** The handlers' answers *)

Lemma read_item_returns (n : Z) (q : option string) (w : World) :
  read_item n q w =
    (VDict {["item_id" := VInt n; "q" := optional_str q]}, w).
Proof. unfold read_item, ret. rewrite dict_two by discriminate. reflexivity. Qed.

Lemma create_item_returns (item : Item) (w : World) :
  create_item item w =
    (VDict {["name" := VStr (name item);
             "description" := VStr (Basic.description item)]}, w).
Proof. unfold create_item, ret. rewrite dict_two by discriminate. reflexivity. Qed.

Lemma read_root_returns (w : World) :
  read_root w = (VDict {["Hello" := VStr "World"]}, w).
Proof. unfold read_root, ret. rewrite dict_one. reflexivity. Qed.

Lemma items_get_valid (req : Request) (seg : string) (n : Z)
    (q : option string) (w : World) :
  method req = GET -> path req = "/items/" +:+ seg -> segment seg = true ->
  int_of_str seg = inl n ->
  query_str "q" (Query None (Some 3)) req = Valid q ->
  handle app req w =
    (OK (VDict {["item_id" := VInt n; "q" := optional_str q]}), w).
Proof.
  intros Hm Hp Hseg Hint Hq.
  rewrite (handle_items_get req seg Hm Hp Hseg).
  unfold read_item_endpoint. rewrite path_int_bound, Hint, Hq.
  simpl. unfold bind. rewrite read_item_returns. reflexivity.
Qed.


(** Serving one more request after others. *)
Lemma serve_snoc (a : FastAPI World) (prior : list Request) (req : Request)
    (w : World) :
  (serve a (prior ++ [req]) w).1 =
    (serve a prior w).1 ++ [(handle a req (serve a prior w).2).1].
Proof.
  revert w. induction prior as [|r prior IH]; intros w; simpl.
  - unfold bind, ret. destruct (handle a req w). reflexivity.
  - unfold bind, ret. destruct (handle a r w) as [resp w'].
    specialize (IH w').
    destruct (serve a (prior ++ [req]) w') as [resps w''].
    destruct (serve a prior w') as [resps' w'''].
    simpl in *. rewrite IH. reflexivity.
Qed.

End app.

End Basic_facts.

(** ** The items service: [GET /items/{item_id}] *)

Module read_item_spec.
Import fastapi fastapi_facts Basic Basic_facts routing.

(** C1, as the claim states it, fails: the integer written with 4301
    nines is sent as its decimal numeral with [q] omitted, and the answer
    is a validation failure for the size of the numeral, not a mapping. *)
Lemma read_item_q_omitted_refuted :
  method (mkRequest GET
            ("/items/" +:+ str_of_int
               (Z.of_int (Decimal.Pos (Nat.iter 4301 Decimal.D9 Decimal.Nil))))
            [] [] None) = GET
  /\ multidict_get "q"
       (query_params
          (mkRequest GET
             ("/items/" +:+ str_of_int
                (Z.of_int (Decimal.Pos (Nat.iter 4301 Decimal.D9 Decimal.Nil))))
             [] [] None)) = None
  /\ (handle (app (builtins := sample_builtins))
        (mkRequest GET
           ("/items/" +:+ str_of_int
              (Z.of_int (Decimal.Pos (Nat.iter 4301 Decimal.D9 Decimal.Nil))))
           [] [] None) tt).1
     = RequestValidationError [mkError ["path"; "item_id"] int_parsing_size]
  /\ ~ exists d : gmap string value,
         handle (app (builtins := sample_builtins))
           (mkRequest GET
              ("/items/" +:+ str_of_int
                 (Z.of_int
                    (Decimal.Pos (Nat.iter 4301 Decimal.D9 Decimal.Nil))))
              [] [] None) tt
         = (OK (VDict d), tt).
Proof.
  unfold str_of_int. rewrite DecimalZ.to_of.
  assert (H : (handle (app (builtins := sample_builtins))
        (mkRequest GET
           ("/items/" +:+ NilZero.string_of_int
              (Decimal.norm
                 (Decimal.Pos (Nat.iter 4301 Decimal.D9 Decimal.Nil))))
           [] [] None) tt).1
     = RequestValidationError [mkError ["path"; "item_id"] int_parsing_size])
    by (vm_compute; reflexivity).
  split; [reflexivity|]. split; [reflexivity|]. split; [exact H|].
  intros [d Hd]. rewrite Hd in H. discriminate H.
Qed.

(** C1, amended: for every integer [n] whose decimal numeral has at most
    4300 characters, a GET request to [/items/{n}] whose query string
    carries no [q] succeeds and returns the mapping
    [{"item_id": n, "q": None}]; the key ["q"] is present and bound to
    [None]. *)
Theorem read_item_q_omitted {World : Type} {builtins : Builtins World}
    (n : Z) (req : Request) (w : World) :
  String.length (str_of_int n) <= 4300 ->
  method req = GET ->
  path req = "/items/" +:+ str_of_int n ->
  multidict_get "q" (query_params req) = None ->
  exists d : gmap string value,
    handle app req w = (OK (VDict d), w)
    /\ d = {["item_id" := VInt n; "q" := VNone]}
    /\ d !! "item_id" = Some (VInt n)
    /\ d !! "q" = Some VNone.
Proof.
  intros Hn Hm Hp Hq. eexists. split.
  - apply (items_get_valid req (str_of_int n) n None w Hm Hp).
    + apply segment_str_of_int.
    + apply int_of_str_of_int, Hn.
    + apply query_q_absent, Hq.
  - simpl. split; [reflexivity|]. split.
    + apply lookup_insert_eq.
    + rewrite lookup_insert_ne by discriminate. apply lookup_singleton_eq.
Qed.

Lemma read_item_q_omitted_witness :
  String.length (str_of_int 42) <= 4300
  /\ method (mkRequest GET "/items/42" [] [] None) = GET
  /\ path (mkRequest GET "/items/42" [] [] None) = "/items/" +:+ str_of_int 42
  /\ multidict_get "q" (query_params (mkRequest GET "/items/42" [] [] None))
     = None
  /\ exists d : gmap string value,
       handle (app (builtins := sample_builtins))
         (mkRequest GET "/items/42" [] [] None) tt = (OK (VDict d), tt)
       /\ d = {["item_id" := VInt 42; "q" := VNone]}
       /\ d !! "item_id" = Some (VInt 42)
       /\ d !! "q" = Some VNone.
Proof.
  split; [vm_compute; lia|].
  split; [reflexivity|]. split; [reflexivity|]. split; [reflexivity|].
  apply (read_item_q_omitted (builtins := sample_builtins) 42
           (mkRequest GET "/items/42" [] [] None) tt);
    [vm_compute; lia | reflexivity | reflexivity | reflexivity].
Defined.

(** C2, as the claim states it, fails for the same integer: with
    [q = "pen"] the answer is still the validation failure for the size of
    the numeral. *)
Lemma read_item_q_given_refuted :
  method (mkRequest GET
            ("/items/" +:+ str_of_int
               (Z.of_int (Decimal.Pos (Nat.iter 4301 Decimal.D9 Decimal.Nil))))
            [("q", "pen")] [] None) = GET
  /\ multidict_get "q"
       (query_params
          (mkRequest GET
             ("/items/" +:+ str_of_int
                (Z.of_int (Decimal.Pos (Nat.iter 4301 Decimal.D9 Decimal.Nil))))
             [("q", "pen")] [] None)) = Some "pen"
  /\ 3 <= characters "pen"
  /\ (handle (app (builtins := sample_builtins))
        (mkRequest GET
           ("/items/" +:+ str_of_int
              (Z.of_int (Decimal.Pos (Nat.iter 4301 Decimal.D9 Decimal.Nil))))
           [("q", "pen")] [] None) tt).1
     = RequestValidationError [mkError ["path"; "item_id"] int_parsing_size]
  /\ ~ exists d : gmap string value,
         handle (app (builtins := sample_builtins))
           (mkRequest GET
              ("/items/" +:+ str_of_int
                 (Z.of_int
                    (Decimal.Pos (Nat.iter 4301 Decimal.D9 Decimal.Nil))))
              [("q", "pen")] [] None) tt
         = (OK (VDict d), tt).
Proof.
  unfold str_of_int. rewrite DecimalZ.to_of.
  assert (H : (handle (app (builtins := sample_builtins))
        (mkRequest GET
           ("/items/" +:+ NilZero.string_of_int
              (Decimal.norm
                 (Decimal.Pos (Nat.iter 4301 Decimal.D9 Decimal.Nil))))
           [("q", "pen")] [] None) tt).1
     = RequestValidationError [mkError ["path"; "item_id"] int_parsing_size])
    by (vm_compute; reflexivity).
  split; [reflexivity|]. split; [reflexivity|]. split; [vm_compute; lia|].
  split; [exact H|].
  intros [d Hd]. rewrite Hd in H. discriminate H.
Qed.

(** C2, amended: for every integer [n] whose decimal numeral has at most
    4300 characters and every text [s] of at least 3 characters, a GET
    request to [/items/{n}?q={s}] succeeds and returns the mapping
    [{"item_id": n, "q": s}], both inputs unchanged. *)
Theorem read_item_q_given {World : Type} {builtins : Builtins World}
    (n : Z) (s : string) (req : Request) (w : World) :
  String.length (str_of_int n) <= 4300 ->
  method req = GET ->
  path req = "/items/" +:+ str_of_int n ->
  multidict_get "q" (query_params req) = Some s ->
  3 <= characters s ->
  exists d : gmap string value,
    handle app req w = (OK (VDict d), w)
    /\ d = {["item_id" := VInt n; "q" := VStr s]}
    /\ d !! "item_id" = Some (VInt n)
    /\ d !! "q" = Some (VStr s).
Proof.
  intros Hn Hm Hp Hq Hlen. eexists. split.
  - apply (items_get_valid req (str_of_int n) n (Some s) w Hm Hp).
    + apply segment_str_of_int.
    + apply int_of_str_of_int, Hn.
    + apply query_q_long; assumption.
  - simpl. split; [reflexivity|]. split.
    + apply lookup_insert_eq.
    + rewrite lookup_insert_ne by discriminate. apply lookup_singleton_eq.
Qed.

Lemma read_item_q_given_witness :
  String.length (str_of_int (-7)) <= 4300
  /\ method (mkRequest GET "/items/-7" [("q", "pen")] [] None) = GET
  /\ path (mkRequest GET "/items/-7" [("q", "pen")] [] None)
     = "/items/" +:+ str_of_int (-7)
  /\ multidict_get "q"
       (query_params (mkRequest GET "/items/-7" [("q", "pen")] [] None))
     = Some "pen"
  /\ 3 <= characters "pen"
  /\ exists d : gmap string value,
       handle (app (builtins := sample_builtins))
         (mkRequest GET "/items/-7" [("q", "pen")] [] None) tt
       = (OK (VDict d), tt)
       /\ d = {["item_id" := VInt (-7); "q" := VStr "pen"]}
       /\ d !! "item_id" = Some (VInt (-7))
       /\ d !! "q" = Some (VStr "pen").
Proof.
  split; [vm_compute; lia|].
  split; [reflexivity|]. split; [reflexivity|]. split; [reflexivity|].
  split; [vm_compute; lia|].
  apply (read_item_q_given (builtins := sample_builtins) (-7) "pen"
           (mkRequest GET "/items/-7" [("q", "pen")] [] None) tt);
    [vm_compute; lia | reflexivity | reflexivity | reflexivity | vm_compute; lia].
Defined.

(** C3: for every integer [n] and every text [s] of fewer than 3
    characters, the empty text included, a GET request to
    [/items/{n}?q={s}] is answered with a validation failure that reports
    the query parameter [q], and with no handler result.  When the numeral
    of [n] stays within 4300 characters this is the only error
    reported. *)
Theorem read_item_q_too_short {World : Type} {builtins : Builtins World}
    (n : Z) (s : string) (req : Request) (w : World) :
  method req = GET ->
  path req = "/items/" +:+ str_of_int n ->
  multidict_get "q" (query_params req) = Some s ->
  utf8 s = true ->
  characters s < 3 ->
  exists errs,
    handle app req w = (RequestValidationError errs, w)
    /\ mkError ["query"; "q"] (string_too_short 3) ∈ errs
    /\ (String.length (str_of_int n) <= 4300 ->
        errs = [mkError ["query"; "q"] (string_too_short 3)])
    /\ is_validation_failure (handle app req w).1 = true
    /\ forall v, (handle app req w).1 <> OK v.
Proof.
  intros Hm Hp Hq _ Hlen.
  rewrite (handle_items_get req (str_of_int n) Hm Hp (segment_str_of_int n)).
  unfold read_item_endpoint.
  rewrite path_int_bound, (query_q_short req s Hq Hlen).
  destruct (int_of_str (str_of_int n)) as [n'|k] eqn:E; eexists;
    (split; [reflexivity|]).
  - split; [apply list_elem_of_here|].
    split; [reflexivity|]. split; [reflexivity|discriminate].
  - split; [apply list_elem_of_further, list_elem_of_here|].
    split; [|split; [reflexivity|discriminate]].
    intros Hn. rewrite (int_of_str_of_int n Hn) in E. discriminate E.
Qed.

Lemma read_item_q_too_short_witness :
  method (mkRequest GET "/items/5" [("q", "éé")] [] None) = GET
  /\ path (mkRequest GET "/items/5" [("q", "éé")] [] None)
     = "/items/" +:+ str_of_int 5
  /\ multidict_get "q"
       (query_params (mkRequest GET "/items/5" [("q", "éé")] [] None))
     = Some "éé"
  /\ utf8 "éé" = true
  /\ characters "éé" < 3
  /\ exists errs,
       handle (app (builtins := sample_builtins))
         (mkRequest GET "/items/5" [("q", "éé")] [] None) tt
       = (RequestValidationError errs, tt)
       /\ mkError ["query"; "q"] (string_too_short 3) ∈ errs
       /\ (String.length (str_of_int 5) <= 4300 ->
           errs = [mkError ["query"; "q"] (string_too_short 3)])
       /\ is_validation_failure
            (handle (app (builtins := sample_builtins))
               (mkRequest GET "/items/5" [("q", "éé")] [] None) tt).1 = true
       /\ forall v,
            (handle (app (builtins := sample_builtins))
               (mkRequest GET "/items/5" [("q", "éé")] [] None) tt).1 <> OK v.
Proof.
  split; [reflexivity|]. split; [reflexivity|]. split; [reflexivity|].
  split; [reflexivity|]. split; [vm_compute; lia|].
  apply (read_item_q_too_short (builtins := sample_builtins) 5 "éé"
           (mkRequest GET "/items/5" [("q", "éé")] [] None) tt);
    [reflexivity | reflexivity | reflexivity | reflexivity | vm_compute; lia].
Defined.




End read_item_spec.

(** ** The items service: [POST /items/] *)

Module create_item_facts.
Import fastapi fastapi_facts Basic Basic_facts routing.

Lemma str_field_valid (f : string) (d : gmap string value) (s : string) :
  d !! f = Some (VStr s) -> str_field f d = Valid s.
Proof. intros H. unfold str_field. rewrite H. reflexivity. Qed.

Lemma str_field_invalid (f : string) (d : gmap string value) :
  is_str (d !! f) = false -> exists e, str_field f d = Invalid [e].
Proof.
  unfold str_field. destruct (d !! f) as [[]|]; simpl; intros H;
    try discriminate; eauto.
Qed.

Lemma str_field_cases (f : string) (d : gmap string value) :
  (exists s, str_field f d = Valid s) \/ (exists e, str_field f d = Invalid [e]).
Proof.
  unfold str_field. destruct (d !! f) as [[]|]; eauto.
Qed.

(** Validation of [Item] fails as soon as one field is not a string. *)
Lemma Item_model_invalid (d : gmap string value) :
  is_str (d !! "name") && is_str (d !! "description") = false ->
  exists errs, errs <> [] /\ model_validate (A := Item) d = Invalid errs.
Proof.
  intros H. unfold model_validate, Item_model.
  apply andb_false_iff in H as [H|H];
    apply str_field_invalid in H as [e He].
  - rewrite He.
    destruct (str_field_cases "description" d) as [[s Hs]|[e' He']].
    + rewrite Hs. exists [e]. split; [discriminate|reflexivity].
    + rewrite He'. eexists. split; [|reflexivity]. discriminate.
  - rewrite He.
    destruct (str_field_cases "name" d) as [[s Hs]|[e' He']].
    + rewrite Hs. exists [e]. split; [discriminate|reflexivity].
    + rewrite He'. eexists. split; [|reflexivity]. discriminate.
Qed.

Lemma Item_model_valid (d : gmap string value) (a b : string) :
  d !! "name" = Some (VStr a) -> d !! "description" = Some (VStr b) ->
  model_validate (A := Item) d = Valid (mkItem a b).
Proof.
  intros Ha Hb. unfold model_validate, Item_model.
  rewrite (str_field_valid _ _ _ Ha), (str_field_valid _ _ _ Hb). reflexivity.
Qed.

Lemma create_item_valid {World : Type} {builtins : Builtins World}
    (req : Request)
    (d : gmap string value) (a b : string) (w : World) :
  method req = POST -> path req = "/items/" ->
  body req = Some (VDict d) ->
  d !! "name" = Some (VStr a) -> d !! "description" = Some (VStr b) ->
  handle app req w =
    (OK (VDict {["name" := VStr a; "description" := VStr b]}), w).
Proof.
  intros Hm Hp Hb Ha Hd.
  rewrite (handle_items_post req Hm Hp).
  unfold create_item_endpoint, body_model. rewrite Hb.
  rewrite (Item_model_valid d a b Ha Hd).
  simpl. unfold bind. rewrite create_item_returns. reflexivity.
Qed.

End create_item_facts.

Module create_item_spec.
Import fastapi fastapi_facts Basic Basic_facts create_item_facts routing.

(** C4: for every request body that has the Item shape (["name"] and
    ["description"] present and strings), a POST to [/items/] succeeds and
    returns the mapping of exactly these two fields to the submitted
    values. *)
Theorem create_item_echoes_fields {World : Type} {builtins : Builtins World}
    (req : Request)
    (d : gmap string value) (a b : string) (w : World) :
  method req = POST ->
  path req = "/items/" ->
  body req = Some (VDict d) ->
  d !! "name" = Some (VStr a) ->
  d !! "description" = Some (VStr b) ->
  handle app req w =
    (OK (VDict {["name" := VStr a; "description" := VStr b]}), w).
Proof. apply create_item_valid. Qed.

Lemma create_item_echoes_fields_witness :
  method (mkRequest POST "/items/" [] []
            (Some (VDict {["name" := VStr "pen";
                           "description" := VStr "blue pen"]}))) = POST
  /\ path (mkRequest POST "/items/" [] []
            (Some (VDict {["name" := VStr "pen";
                           "description" := VStr "blue pen"]}))) = "/items/"
  /\ body (mkRequest POST "/items/" [] []
            (Some (VDict {["name" := VStr "pen";
                           "description" := VStr "blue pen"]})))
     = Some (VDict {["name" := VStr "pen"; "description" := VStr "blue pen"]})
  /\ ({["name" := VStr "pen"; "description" := VStr "blue pen"]}
        : gmap string value) !! "name" = Some (VStr "pen")
  /\ ({["name" := VStr "pen"; "description" := VStr "blue pen"]}
        : gmap string value) !! "description" = Some (VStr "blue pen")
  /\ handle (app (builtins := sample_builtins))
       (mkRequest POST "/items/" [] []
          (Some (VDict {["name" := VStr "pen";
                         "description" := VStr "blue pen"]}))) tt =
       (OK (VDict {["name" := VStr "pen"; "description" := VStr "blue pen"]}),
        tt).
Proof.
  split; [reflexivity|]. split; [reflexivity|]. split; [reflexivity|].
  split; [reflexivity|]. split; [reflexivity|].
  apply (create_item_echoes_fields (builtins := sample_builtins)
           (mkRequest POST "/items/" [] []
              (Some (VDict {["name" := VStr "pen";
                             "description" := VStr "blue pen"]})))
           {["name" := VStr "pen"; "description" := VStr "blue pen"]}
           "pen" "blue pen" tt); reflexivity.
Defined.

(** C5: for every request body in which ["name"] or ["description"] is
    missing or is not a string, a POST to [/items/] is answered with a
    validation failure (at least one error) and no handler result. *)
Theorem create_item_rejects_bad_body {World : Type} {builtins : Builtins World}
    (req : Request)
    (w : World) :
  method req = POST ->
  path req = "/items/" ->
  Item_shape (body req) = false ->
  exists errs,
    errs <> []
    /\ handle app req w = (RequestValidationError errs, w)
    /\ forall v, (handle app req w).1 <> OK v.
Proof.
  intros Hm Hp Hshape.
  rewrite (handle_items_post req Hm Hp).
  unfold create_item_endpoint, body_model.
  unfold Item_shape in Hshape.
  destruct (body req) as [[| | | | | |d]|];
    try (eexists; split; [|split; [reflexivity|discriminate]]; discriminate).
  destruct (Item_model_invalid d Hshape) as (errs & Hne & Herrs).
  rewrite Herrs. exists errs. split; [exact Hne|].
  split; [reflexivity|discriminate].
Qed.

Lemma create_item_rejects_bad_body_witness :
  method (mkRequest POST "/items/" [] []
            (Some (VDict {["name" := VStr "pen"]}))) = POST
  /\ path (mkRequest POST "/items/" [] []
            (Some (VDict {["name" := VStr "pen"]}))) = "/items/"
  /\ Item_shape (body (mkRequest POST "/items/" [] []
                         (Some (VDict {["name" := VStr "pen"]})))) = false
  /\ exists errs,
       errs <> []
       /\ handle (app (builtins := sample_builtins)) (mkRequest POST "/items/" [] []
                        (Some (VDict {["name" := VStr "pen"]}))) tt
          = (RequestValidationError errs, tt)
       /\ forall v,
            (handle (app (builtins := sample_builtins)) (mkRequest POST "/items/" [] []
                           (Some (VDict {["name" := VStr "pen"]}))) tt).1
            <> OK v.
Proof.
  split; [reflexivity|]. split; [reflexivity|]. split; [reflexivity|].
  apply (create_item_rejects_bad_body (builtins := sample_builtins)
           (mkRequest POST "/items/" [] []
              (Some (VDict {["name" := VStr "pen"]}))) tt); reflexivity.
Defined.

(** C10: a POST body to [/items/] that has the two string fields and any
    further keys still succeeds; the returned mapping has exactly the keys
    ["name"] and ["description"], bound to the submitted values, and none
    of the further keys. *)
Theorem create_item_drops_extra_keys {World : Type} {builtins : Builtins World}
    (req : Request)
    (d : gmap string value) (a b : string) (w : World) :
  method req = POST ->
  path req = "/items/" ->
  body req = Some (VDict d) ->
  d !! "name" = Some (VStr a) ->
  d !! "description" = Some (VStr b) ->
  exists r : gmap string value,
    handle app req w = (OK (VDict r), w)
    /\ dom r = {["name"; "description"]}
    /\ r !! "name" = Some (VStr a)
    /\ r !! "description" = Some (VStr b)
    /\ forall k, k ∈ dom d -> k <> "name" -> k <> "description" ->
         r !! k = None.
Proof.
  intros Hm Hp Hb Ha Hd. eexists. split.
  - apply (create_item_valid req d a b w); assumption.
  - split; [|split; [|split]].
    + rewrite dom_insert_L, dom_singleton_L. reflexivity.
    + apply lookup_insert_eq.
    + rewrite lookup_insert_ne by discriminate. apply lookup_singleton_eq.
    + intros k _ Hk1 Hk2.
      rewrite lookup_insert_ne by congruence.
      apply lookup_singleton_ne. congruence.
Qed.

Lemma create_item_drops_extra_keys_witness :
  method (mkRequest POST "/items/" [] []
            (Some (VDict {["name" := VStr "pen";
                           "description" := VStr "blue pen";
                           "price" := VInt 3]}))) = POST
  /\ path (mkRequest POST "/items/" [] []
            (Some (VDict {["name" := VStr "pen";
                           "description" := VStr "blue pen";
                           "price" := VInt 3]}))) = "/items/"
  /\ body (mkRequest POST "/items/" [] []
            (Some (VDict {["name" := VStr "pen";
                           "description" := VStr "blue pen";
                           "price" := VInt 3]})))
     = Some (VDict {["name" := VStr "pen"; "description" := VStr "blue pen";
                     "price" := VInt 3]})
  /\ ({["name" := VStr "pen"; "description" := VStr "blue pen";
        "price" := VInt 3]} : gmap string value) !! "name"
     = Some (VStr "pen")
  /\ ({["name" := VStr "pen"; "description" := VStr "blue pen";
        "price" := VInt 3]} : gmap string value) !! "description"
     = Some (VStr "blue pen")
  /\ exists r : gmap string value,
       handle (app (builtins := sample_builtins))
         (mkRequest POST "/items/" [] []
            (Some (VDict {["name" := VStr "pen";
                           "description" := VStr "blue pen";
                           "price" := VInt 3]}))) tt = (OK (VDict r), tt)
       /\ dom r = {["name"; "description"]}
       /\ r !! "name" = Some (VStr "pen")
       /\ r !! "description" = Some (VStr "blue pen")
       /\ forall k,
            k ∈ dom ({["name" := VStr "pen"; "description" := VStr "blue pen";
                       "price" := VInt 3]} : gmap string value) ->
            k <> "name" -> k <> "description" -> r !! k = None.
Proof.
  split; [reflexivity|]. split; [reflexivity|]. split; [reflexivity|].
  split; [reflexivity|]. split; [reflexivity|].
  apply (create_item_drops_extra_keys (builtins := sample_builtins)
           (mkRequest POST "/items/" [] []
              (Some (VDict {["name" := VStr "pen";
                             "description" := VStr "blue pen";
                             "price" := VInt 3]})))
           {["name" := VStr "pen"; "description" := VStr "blue pen";
             "price" := VInt 3]}
           "pen" "blue pen" tt); reflexivity.
Defined.

End create_item_spec.

(** ** The items service: [GET /] *)

Module service_spec.
Import fastapi fastapi_facts Basic Basic_facts routing.

(** C7: every GET request to [/] succeeds and returns exactly the mapping
    [{"Hello": "World"}], whatever its query string, headers and body, and
    whatever requests were served before it. *)
Theorem read_root_fixed_mapping {World : Type} {builtins : Builtins World}
    (req : Request) (w : World) :
  method req = GET ->
  path req = "/" ->
  handle app req w = (OK (VDict {["Hello" := VStr "World"]}), w)
  /\ forall prior : list Request,
       last (serve app (prior ++ [req]) w).1
       = Some (OK (VDict {["Hello" := VStr "World"]})).
Proof.
  intros Hm Hp.
  assert (H : forall w' : World,
             handle app req w' = (OK (VDict {["Hello" := VStr "World"]}), w')).
  { intros w'. rewrite (handle_root req Hm Hp).
    unfold read_root_endpoint. simpl. unfold bind.
    rewrite read_root_returns. reflexivity. }
  split; [apply H|].
  intros prior. rewrite serve_snoc, last_snoc, H. reflexivity.
Qed.

Lemma read_root_fixed_mapping_witness :
  method (mkRequest GET "/" [("q", "x")] [("accept", "text/html")]
            (Some (VInt 1))) = GET
  /\ path (mkRequest GET "/" [("q", "x")] [("accept", "text/html")]
            (Some (VInt 1))) = "/"
  /\ handle (app (builtins := sample_builtins))
       (mkRequest GET "/" [("q", "x")] [("accept", "text/html")]
          (Some (VInt 1))) tt
     = (OK (VDict {["Hello" := VStr "World"]}), tt)
  /\ forall prior : list Request,
       last (serve (app (builtins := sample_builtins))
               (prior ++ [mkRequest GET "/" [("q", "x")]
                            [("accept", "text/html")] (Some (VInt 1))]) tt).1
       = Some (OK (VDict {["Hello" := VStr "World"]})).
Proof.
  split; [reflexivity|]. split; [reflexivity|].
  apply (read_root_fixed_mapping (builtins := sample_builtins)
           (mkRequest GET "/" [("q", "x")] [("accept", "text/html")]
              (Some (VInt 1))) tt); reflexivity.
Defined.

End service_spec.

(** ** [FastAPIProject/main.py] *)

Module main_spec.
Import fastapi FastAPIProject.

Lemma alter_last {A} (f : A -> A) (l : list A) (a : A) :
  alter f (length l) (l ++ [a]) = l ++ [f a].
Proof. induction l as [|x l IH]; simpl; [reflexivity|]. f_equal. exact IH. Qed.

Lemma add_routes_last {World : Type} (rs : list (APIRoute World))
    (h : Heap World) (a : FastAPI World) :
  add_routes (length h) rs (h ++ [a]) =
    (tt, h ++ [mkApp (title a) (description a) (version a) (routes a ++ rs)]).
Proof.
  revert a. induction rs as [|r rs IH]; intros a; simpl.
  - unfold ret. rewrite app_nil_r. destruct a; reflexivity.
  - unfold bind, add_api_route.
    unfold Heap in *. rewrite alter_last.
    rewrite IH. simpl. rewrite <- app_assoc. reflexivity.
Qed.

(** C9: the module constructs exactly one application object, with title
    ["Fast API LMS"], description ["LMS for managing students and
    courses."] and version ["0.0.1"], and registers on it the routes of
    [users.router], [courses.router] and [sections.router], in this order
    and nothing else: the route table is the one the constructor sets up
    (the schema and documentation routes of the framework) followed by
    the routes of the three routers.  Objects that existed before are
    left as they were. *)
Theorem main_builds_one_app {World : Type} {builtins : Builtins World}
    (users courses sections : api_module World) (h : Heap World) :
  exists a : FastAPI World,
    module users courses sections h = (length h, h ++ [a])
    /\ title a = "Fast API LMS"
    /\ description a = "LMS for managing students and courses."
    /\ version a = "0.0.1"
    /\ routes a = setup
                  ++ router_routes (router users)
                  ++ router_routes (router courses)
                  ++ router_routes (router sections)
    /\ map (fun r => (route_path r, methods r)) setup
       = [("/openapi.json", [GET; HEAD]); ("/docs", [GET; HEAD]);
          ("/docs/oauth2-redirect", [GET; HEAD]); ("/redoc", [GET; HEAD])].
Proof.
  eexists. split.
  - unfold module, bind, include_router, FastAPI_.
    rewrite add_routes_last. cbn [title description version routes].
    rewrite add_routes_last. cbn [title description version routes].
    rewrite add_routes_last. cbn [title description version routes].
    unfold ret. reflexivity.
  - cbn [title description version routes]. rewrite <- !app_assoc.
    repeat split; reflexivity.
Qed.

End main_spec.

(** ** Further properties of [Basic/app.py] *)

Module Basic_more.
Import fastapi fastapi_facts Basic Basic_facts create_item_facts routing.

Lemma at_end_segment (seg : string) :
  segment seg = true -> seg <> String newline "" -> at_end seg = false.
Proof.
  destruct seg as [|c [|c' seg]]; [discriminate| |reflexivity].
  intros _ H. simpl. destruct (Ascii.eqb_spec c newline) as [->|_];
    [congruence|reflexivity].
Qed.

Lemma match_literal_segment (l seg : string) :
  at_end seg = false -> match_path [Lit l] (l +:+ seg) = None.
Proof.
  intros H. cbn [match_path]. rewrite strip_prefix_app, H. reflexivity.
Qed.

(** X3: a request to one of the three declared paths with a method the
    path is not declared for is answered "method not allowed"; no handler
    runs and the state is left as it was.  The one segment set aside is
    the single newline: the path [/items/] followed by a newline also fits
    the route of [create_item]. *)
Theorem wrong_method_not_allowed {World : Type} {builtins : Builtins World}
    (req : Request) (w : World) :
  (path req = "/" /\ method req <> GET)
  \/ ((exists seg, path req = "/items/" +:+ seg /\ segment seg = true
                   /\ seg <> String newline "")
      /\ method req <> GET)
  \/ (path req = "/items/" /\ method req <> POST) ->
  handle app req w = (MethodNotAllowed, w).
Proof.
  unfold handle. rewrite app_routes. unfold dispatch, matches.
  cbn [route_path methods endpoint].
  intros [[Hp Hm]|[[(seg & Hp & Hseg & Hnl) Hm]|[Hp Hm]]]; rewrite Hp.
  - destruct (method req); try congruence; reflexivity.
  - change (compile_path "/items/{item_id}")
      with [Lit "/items/"; Param "item_id"].
    change (compile_path "/items/") with [Lit "/items/"].
    rewrite (match_literal_then_param _ _ _ Hseg).
    rewrite (match_literal_segment _ _ (at_end_segment _ Hseg Hnl)).
    destruct seg as [|c seg]; [discriminate|].
    destruct (method req); try congruence; reflexivity.
  - destruct (method req); try congruence; reflexivity.
Qed.

Lemma wrong_method_not_allowed_witness :
  ((path (mkRequest DELETE "/items/5" [] [] None) = "/"
    /\ method (mkRequest DELETE "/items/5" [] [] None) <> GET)
   \/ ((exists seg, path (mkRequest DELETE "/items/5" [] [] None)
                    = "/items/" +:+ seg /\ segment seg = true
                    /\ seg <> String newline "")
       /\ method (mkRequest DELETE "/items/5" [] [] None) <> GET)
   \/ (path (mkRequest DELETE "/items/5" [] [] None) = "/items/"
       /\ method (mkRequest DELETE "/items/5" [] [] None) <> POST))
  /\ handle (app (builtins := sample_builtins))
       (mkRequest DELETE "/items/5" [] [] None) tt
     = (MethodNotAllowed, tt).
Proof.
  assert (H : (path (mkRequest DELETE "/items/5" [] [] None) = "/"
    /\ method (mkRequest DELETE "/items/5" [] [] None) <> GET)
   \/ ((exists seg, path (mkRequest DELETE "/items/5" [] [] None)
                    = "/items/" +:+ seg /\ segment seg = true
                    /\ seg <> String newline "")
       /\ method (mkRequest DELETE "/items/5" [] [] None) <> GET)
   \/ (path (mkRequest DELETE "/items/5" [] [] None) = "/items/"
       /\ method (mkRequest DELETE "/items/5" [] [] None) <> POST)).
  { right; left. split; [|discriminate].
    exists "5". split; [reflexivity|]. split; [reflexivity|discriminate]. }
  split; [exact H|].
  exact (wrong_method_not_allowed (builtins := sample_builtins)
           (mkRequest DELETE "/items/5" [] [] None) tt H).
Defined.

(** X2: the path [/items/] followed by a newline fits the routes of both
    [read_item] and [create_item]: a POST to it is served by
    [create_item], exactly as a POST to [/items/]. *)
Theorem trailing_newline_reaches_create_item {World : Type}
    {builtins : Builtins World} (req : Request) (w : World) :
  method req = POST ->
  path req = "/items/" +:+ String newline "" ->
  handle app req w = create_item_endpoint req [] w.
Proof.
  intros Hm Hp. unfold handle. rewrite app_routes.
  unfold dispatch, matches. cbn [route_path methods endpoint].
  rewrite Hm, Hp. reflexivity.
Qed.

Lemma trailing_newline_reaches_create_item_witness :
  method (mkRequest POST ("/items/" +:+ String newline "") [] []
            (Some (VDict {["name" := VStr "pen";
                           "description" := VStr "blue pen"]}))) = POST
  /\ path (mkRequest POST ("/items/" +:+ String newline "") [] []
             (Some (VDict {["name" := VStr "pen";
                            "description" := VStr "blue pen"]})))
     = "/items/" +:+ String newline ""
  /\ handle (app (builtins := sample_builtins))
       (mkRequest POST ("/items/" +:+ String newline "") [] []
          (Some (VDict {["name" := VStr "pen";
                         "description" := VStr "blue pen"]}))) tt
     = create_item_endpoint
         (mkRequest POST ("/items/" +:+ String newline "") [] []
            (Some (VDict {["name" := VStr "pen";
                           "description" := VStr "blue pen"]}))) [] tt.
Proof.
  split; [reflexivity|]. split; [reflexivity|].
  apply (trailing_newline_reaches_create_item (builtins := sample_builtins)
           (mkRequest POST ("/items/" +:+ String newline "") [] []
              (Some (VDict {["name" := VStr "pen";
                             "description" := VStr "blue pen"]}))) tt);
    reflexivity.
Defined.



(** The three ways a field of [Item] can turn out. *)
Lemma str_field_outcome (f : string) (d : gmap string value) :
  (exists s, d !! f = Some (VStr s) /\ str_field f d = Valid s)
  \/ (d !! f = None
      /\ str_field f d = Invalid [mkError ["body"; f] missing])
  \/ (exists v, d !! f = Some v /\ is_str (Some v) = false
       /\ str_field f d = Invalid [mkError ["body"; f] string_type]).
Proof.
  unfold str_field. destruct (d !! f) as [[]|]; eauto 10.
Qed.

(** X8: What [create_item] returns is itself a body the route accepts, and
    posting it again returns it unchanged. *)
Theorem create_item_result_accepted_again {World : Type} {builtins : Builtins World}
    (req req' : Request)
    (v : value) (w : World) :
  method req = POST -> path req = "/items/" ->
  (handle app req w).1 = OK v ->
  method req' = POST -> path req' = "/items/" ->
  body req' = Some v ->
  handle app req' w = (OK v, w).
Proof.
  intros Hm Hp Hv Hm' Hp' Hb'.
  rewrite (handle_items_post req Hm Hp) in Hv.
  unfold create_item_endpoint, body_model in Hv.
  destruct (body req) as [[| | | | | |d]|]; try discriminate.
  unfold model_validate, Item_model in Hv.
  destruct (str_field_outcome "name" d)
    as [(a & _ & Ea)|[[_ Ea]|(x & _ & _ & Ea)]]; rewrite Ea in Hv;
    (destruct (str_field_outcome "description" d)
       as [(b & _ & Eb)|[[_ Eb]|(y & _ & _ & Eb)]]; rewrite Eb in Hv);
    try discriminate.
  cbn [vmap vap respond] in Hv. unfold bind in Hv.
  rewrite create_item_returns in Hv.
  cbn [ret fst] in Hv. injection Hv as <-.
  apply (create_item_valid req' _ a b w Hm' Hp' Hb').
  - apply lookup_insert_eq.
  - rewrite lookup_insert_ne by discriminate. apply lookup_singleton_eq.
Qed.

Lemma create_item_result_accepted_again_witness :
  method (mkRequest POST "/items/" [] []
            (Some (VDict {["name" := VStr "pen";
                           "description" := VStr "blue pen";
                           "price" := VInt 3]}))) = POST
  /\ path (mkRequest POST "/items/" [] []
             (Some (VDict {["name" := VStr "pen";
                            "description" := VStr "blue pen";
                            "price" := VInt 3]}))) = "/items/"
  /\ (handle (app (builtins := sample_builtins))
        (mkRequest POST "/items/" [] []
           (Some (VDict {["name" := VStr "pen";
                          "description" := VStr "blue pen";
                          "price" := VInt 3]}))) tt).1
     = OK (VDict (dict [("name", VStr "pen");
                        ("description", VStr "blue pen")]))
  /\ method (mkRequest POST "/items/" [] []
               (Some (VDict (dict [("name", VStr "pen");
                                   ("description", VStr "blue pen")]))))
     = POST
  /\ path (mkRequest POST "/items/" [] []
             (Some (VDict (dict [("name", VStr "pen");
                                 ("description", VStr "blue pen")]))))
     = "/items/"
  /\ body (mkRequest POST "/items/" [] []
             (Some (VDict (dict [("name", VStr "pen");
                                 ("description", VStr "blue pen")]))))
     = Some (VDict (dict [("name", VStr "pen");
                          ("description", VStr "blue pen")]))
  /\ handle (app (builtins := sample_builtins))
       (mkRequest POST "/items/" [] []
          (Some (VDict (dict [("name", VStr "pen");
                              ("description", VStr "blue pen")])))) tt
     = (OK (VDict (dict [("name", VStr "pen");
                         ("description", VStr "blue pen")])), tt).
Proof.
  split; [reflexivity|]. split; [reflexivity|]. split; [reflexivity|].
  split; [reflexivity|]. split; [reflexivity|]. split; [reflexivity|].
  apply (create_item_result_accepted_again (builtins := sample_builtins)
           (mkRequest POST "/items/" [] []
              (Some (VDict {["name" := VStr "pen";
                             "description" := VStr "blue pen";
                             "price" := VInt 3]})))
           (mkRequest POST "/items/" [] []
              (Some (VDict (dict [("name", VStr "pen");
                                  ("description", VStr "blue pen")]))))
           (VDict (dict [("name", VStr "pen");
                         ("description", VStr "blue pen")])) tt);
    reflexivity.
Defined.

(** X9: A validation failure of a POST to [/items/] with a dictionary body
    names every field at fault and nothing else: a field is reported
    missing exactly when the dictionary does not bind it, and reported as
    not a string exactly when it is bound to something that is not a
    string. *)
Theorem create_item_reports_every_field {World : Type} {builtins : Builtins World}
    (req : Request)
    (d : gmap string value) (errs : list ValidationError) (f : string)
    (w : World) :
  method req = POST -> path req = "/items/" ->
  body req = Some (VDict d) ->
  (handle app req w).1 = RequestValidationError errs ->
  f = "name" \/ f = "description" ->
  (mkError ["body"; f] missing ∈ errs <-> d !! f = None)
  /\ (mkError ["body"; f] string_type ∈ errs
      <-> exists x, d !! f = Some x /\ is_str (Some x) = false)
  /\ (forall e, e ∈ errs ->
        loc e = ["body"; "name"] \/ loc e = ["body"; "description"]).
Proof.
  intros Hm Hp Hb Hv Hf.
  rewrite (handle_items_post req Hm Hp) in Hv.
  unfold create_item_endpoint, body_model in Hv. rewrite Hb in Hv.
  unfold model_validate, Item_model in Hv.
  destruct (str_field_outcome "name" d)
    as [(a & Ha & Ea)|[[Ha Ea]|(x & Ha & Hx & Ea)]]; rewrite Ea in Hv;
    (destruct (str_field_outcome "description" d)
       as [(b & Hd & Eb)|[[Hd Eb]|(y & Hd & Hy & Eb)]]; rewrite Eb in Hv);
    simpl in Hv; try discriminate; injection Hv as <-;
    destruct Hf as [-> | ->];
    (split; [|split]);
    rewrite ?elem_of_cons, ?elem_of_nil;
    try (split;
         [ intros Hin; repeat (destruct Hin as [Hin|Hin]);
           try discriminate Hin; try contradiction; try congruence; eauto
         | intros Hin; try (destruct Hin as (x' & Hin1 & Hin2));
           simplify_eq; try discriminate;
           try (left; reflexivity); try (right; left; reflexivity) ]);
    try (intros e He; repeat (apply elem_of_cons in He as [->|He]);
         try (apply elem_of_nil in He; contradiction); simpl; auto).
Qed.

Lemma create_item_reports_every_field_witness :
  method (mkRequest POST "/items/" [] []
            (Some (VDict {["name" := VInt 1]}))) = POST
  /\ path (mkRequest POST "/items/" [] []
             (Some (VDict {["name" := VInt 1]}))) = "/items/"
  /\ body (mkRequest POST "/items/" [] []
             (Some (VDict {["name" := VInt 1]})))
     = Some (VDict {["name" := VInt 1]})
  /\ (handle (app (builtins := sample_builtins)) (mkRequest POST "/items/" [] []
                    (Some (VDict {["name" := VInt 1]}))) tt).1
     = RequestValidationError
         [mkError ["body"; "name"] string_type;
          mkError ["body"; "description"] missing]
  /\ ("description" = "name" \/ "description" = "description")
  /\ (mkError ["body"; "description"] missing
        ∈ [mkError ["body"; "name"] string_type;
           mkError ["body"; "description"] missing]
      <-> ({["name" := VInt 1]} : gmap string value) !! "description" = None)
  /\ (mkError ["body"; "description"] string_type
        ∈ [mkError ["body"; "name"] string_type;
           mkError ["body"; "description"] missing]
      <-> exists x,
            ({["name" := VInt 1]} : gmap string value) !! "description"
            = Some x /\ is_str (Some x) = false)
  /\ (forall e,
        e ∈ [mkError ["body"; "name"] string_type;
             mkError ["body"; "description"] missing] ->
        loc e = ["body"; "name"] \/ loc e = ["body"; "description"]).
Proof.
  split; [reflexivity|]. split; [reflexivity|]. split; [reflexivity|].
  split; [reflexivity|]. split; [right; reflexivity|].
  apply (create_item_reports_every_field (builtins := sample_builtins)
           (mkRequest POST "/items/" [] []
              (Some (VDict {["name" := VInt 1]})))
           {["name" := VInt 1]}
           [mkError ["body"; "name"] string_type;
            mkError ["body"; "description"] missing]
           "description" tt);
    [reflexivity | reflexivity | reflexivity | reflexivity
    | right; reflexivity].
Defined.

End Basic_more.

(** ** Further properties of [FastAPIProject/main.py] *)

Module main_more.
Import fastapi FastAPIProject routing.

Section main.
Context {World : Type} {builtins : Builtins World}.





End main.





End main_more.

(** ** Worked requests *)

Module examples.
Import fastapi Basic routing.

Example int_of_str_samples :
  int_of_str "12" = inl 12%Z /\ int_of_str "-3" = inl (-3)%Z
  /\ int_of_str "+5" = inl 5%Z /\ int_of_str "007" = inl 7%Z
  /\ int_of_str " 5" = inl 5%Z /\ int_of_str "1_000" = inl 1000%Z
  /\ int_of_str "1.0" = inl 1%Z
  /\ int_of_str "" = inr int_parsing /\ int_of_str "-" = inr int_parsing
  /\ int_of_str "abc" = inr int_parsing /\ int_of_str "12a" = inr int_parsing
  /\ int_of_str "1.5" = inr int_parsing /\ int_of_str "1__0" = inr int_parsing.
Proof. repeat split. Qed.

Example characters_samples :
  characters "abc" = 3 /\ characters "éé" = 2 /\ characters "€" = 1
  /\ String.length "éé" = 4.
Proof. repeat split. Qed.

Example route_pattern : compile_path "/items/{item_id}"
                        = [Lit "/items/"; Param "item_id"].
Proof. reflexivity. Qed.

Example get_item_with_q :
  (handle (app (builtins := sample_builtins))
     (mkRequest GET "/items/12" [("q", "blue")] [] None) tt).1
  = OK (VDict (dict [("item_id", VInt 12); ("q", VStr "blue")])).
Proof. reflexivity. Qed.

Example get_item_spelled_with_underscore :
  (handle (app (builtins := sample_builtins))
     (mkRequest GET "/items/1_000" [] [] None) tt).1
  = OK (VDict (dict [("item_id", VInt 1000); ("q", VNone)])).
Proof. reflexivity. Qed.

Example last_q_is_used :
  (handle (app (builtins := sample_builtins))
     (mkRequest GET "/items/12" [("q", "blue"); ("q", "x")] [] None) tt).1
  = RequestValidationError [mkError ["query"; "q"] (string_too_short 3)].
Proof. reflexivity. Qed.

Example path_and_query_errors_together :
  (handle (app (builtins := sample_builtins))
     (mkRequest GET "/items/abc" [("q", "x")] [] None) tt).1
  = RequestValidationError
      [mkError ["path"; "item_id"] int_parsing;
       mkError ["query"; "q"] (string_too_short 3)].
Proof. reflexivity. Qed.

Example post_without_description :
  (handle (app (builtins := sample_builtins))
     (mkRequest POST "/items/" [] []
        (Some (VDict (dict [("name", VStr "pen")])))) tt).1
  = RequestValidationError [mkError ["body"; "description"] missing].
Proof. reflexivity. Qed.

Example post_name_not_a_string :
  (handle (app (builtins := sample_builtins))
     (mkRequest POST "/items/" [] []
        (Some (VDict (dict [("name", VInt 1);
                            ("description", VStr "blue pen")])))) tt).1
  = RequestValidationError [mkError ["body"; "name"] string_type].
Proof. reflexivity. Qed.

Example post_without_body :
  (handle (app (builtins := sample_builtins))
     (mkRequest POST "/items/" [] [] None) tt).1
  = RequestValidationError [mkError ["body"] missing].
Proof. reflexivity. Qed.

Example get_on_post_route :
  (handle (app (builtins := sample_builtins))
     (mkRequest GET "/items/" [] [] None) tt).1 = MethodNotAllowed.
Proof. reflexivity. Qed.

Example documentation_is_served_by_the_framework :
  (handle (app (builtins := sample_builtins))
     (mkRequest GET "/docs" [] [] None) tt).1 = HTMLResponse "docs".
Proof. reflexivity. Qed.

End examples.
